(** * Breakdown technician/admin backend: application bootstrap (main.py, config.py)

    A shallow embedding of the FastAPI entry module: the lifespan hook, the
    exception handlers, the Mapbox token route and the [/ws/{role}] WebSocket
    handler.  Calls on collaborators that live outside the two files
    ([manager], [notifications_manager], [engine], the WebSocket transport)
    are recorded in a trace, and their outcomes are read from an
    environment, so that every path of the handlers can be replayed. *)

From Stdlib Require Import List String ZArith Bool Lia.
Import ListNotations.
Local Open Scope string_scope.
Local Open Scope list_scope.
Set Warnings "-register-all".

(** ** JSON values, as the handlers build them with dict literals *)

Inductive json : Type :=
| JNull
| JBool (b : bool)
| JInt (n : Z)
| JStr (s : string)
| JList (items : list json)
| JDict (fields : list (string * json)).

(** [d[key]] on a dict literal: the first binding of the key. *)
Fixpoint assoc (key : string) (fields : list (string * json)) : option json :=
  match fields with
  | [] => None
  | (k, v) :: rest => if String.eqb k key then Some v else assoc key rest
  end.

Definition field (key : string) (j : json) : option json :=
  match j with
  | JDict fields => assoc key fields
  | _ => None
  end.

(** ** Exceptions

    [exc_kind] records which of the classes named in main.py the exception
    is an instance of, with the attributes the handlers read;
    [exc_type] is [type(exc).__name__] and [exc_text] is [str(exc)]. *)

Inductive exc_kind : Type :=
| IsWebSocketDisconnect
| IsHTTPException (status_code : Z) (detail : json)
| IsRequestValidationError (errors : list json)
| IsResponseValidationError (errors : list json)
| IsOther.

Record exception : Type := mkException {
  exc_kind_of : exc_kind;
  exc_type : string;
  exc_text : string
}.

Definition is_disconnect (e : exception) : bool :=
  match exc_kind_of e with
  | IsWebSocketDisconnect => true
  | _ => false
  end.

(** ** Effects: a trace of collaborator calls, with exceptions and suspension *)

Module Run.

(** What an awaited call yields: a value, an exception, or nothing yet
    (the coroutine stays suspended at the await). *)
Inductive result (A : Type) : Type :=
| Ret (a : A)
| Raise (e : exception)
| Pending.
Arguments Ret {A} a.
Arguments Raise {A} e.
Arguments Pending {A}.

Section Monad.
Variable action : Type.

Definition run (A : Type) : Type := (result A * list action)%type.

Definition ret {A} (a : A) : run A := (Ret a, []).

Definition bind {A B} (m : run A) (k : A -> run B) : run B :=
  match m with
  | (Ret a, t) => let (r, t') := k a in (r, t ++ t')
  | (Raise e, t) => (Raise e, t)
  | (Pending, t) => (Pending, t)
  end.

(** One call on a collaborator: it is logged, then yields what the
    environment says. *)
Definition call {A} (a : action) (o : result A) : run A := (o, [a]).

(** [try: body / except WebSocketDisconnect: handler] *)
Definition try_except_disconnect {A} (body handler : run A) : run A :=
  match body with
  | (Raise e, t) =>
      if is_disconnect e
      then let (r, t') := handler in (r, t ++ t')
      else (Raise e, t)
  | other => other
  end.
End Monad.

Arguments ret {action A} a.
Arguments bind {action A B} m k.
Arguments call {action A} a o.
Arguments try_except_disconnect {action A} body handler.

End Run.
Import Run.

Notation "x <- m ;; k" := (bind m (fun x => k))
  (at level 61, m at next level, right associativity).
Notation "m ;;; k" := (bind m (fun _ => k))
  (at level 61, right associativity).

(** ** The WebSocket endpoint, [/ws/{role}] *)

Module WS.

(** Calls the handler makes: on the connection registry ([manager]) and on
    the WebSocket transport. *)
Inductive action : Type :=
| ManagerConnect (ws : nat) (role : string)
| ManagerDisconnect (ws : nat) (role : string)
| ReceiveText (ws : nat)
| SendText (ws : nat) (text : string).

Definition registry_call (a : action) : bool :=
  match a with
  | ManagerConnect _ _ | ManagerDisconnect _ _ => true
  | _ => false
  end.

Definition is_receive (a : action) : bool :=
  match a with
  | ReceiveText _ => true
  | _ => false
  end.

(** One pass of the read loop as the environment answers it: what
    [receive_text()] yields and, should the handler reply, what
    [send_text()] yields. *)
Record turn : Type := mkTurn {
  on_receive : result string;
  on_send : result unit
}.

Record env : Type := mkEnv {
  on_connect : result unit;
  turns : list turn;
  on_disconnect : result unit
}.

(** [while True: data = await websocket.receive_text(); if data == "ping":
    await websocket.send_text("pong")].  When the environment has no
    further answer the handler is suspended in [receive_text()]. *)
Fixpoint read_loop (ws : nat) (ts : list turn) : run action unit :=
  match ts with
  | [] => call (ReceiveText ws) Pending
  | t :: rest =>
      data <- call (ReceiveText ws) (on_receive t) ;;
      (if String.eqb data "ping"
       then call (SendText ws "pong") (on_send t)
       else ret tt) ;;;
      read_loop ws rest
  end.

Definition websocket_endpoint (ws : nat) (role : string) (e : env)
  : run action unit :=
  call (ManagerConnect ws role) (on_connect e) ;;;
  try_except_disconnect
    (read_loop ws (turns e))
    (call (ManagerDisconnect ws role) (on_disconnect e)).

(** *** Vocabulary for the statements about the read loop *)

(** The turn runs to its end: a frame arrives and, when a reply is due,
    the reply is written. *)
Definition turn_completes (t : turn) : bool :=
  match on_receive t with
  | Ret data =>
      if String.eqb data "ping"
      then match on_send t with Ret _ => true | _ => false end
      else true
  | _ => false
  end.

(** The calls of one completed turn. *)
Definition turn_actions (ws : nat) (t : turn) : list action :=
  match on_receive t with
  | Ret data =>
      if String.eqb data "ping"
      then [ReceiveText ws; SendText ws "pong"]
      else [ReceiveText ws]
  | _ => [ReceiveText ws]
  end.

(** The connection was registered and every turn so far ran to its end:
    the handler is in the loop, suspended in [receive_text()]. *)
Definition connection_open (e : env) : bool :=
  match on_connect e with
  | Ret _ => forallb turn_completes (turns e)
  | _ => false
  end.

(** The same history, followed by one more turn. *)
Definition then_turn (e : env) (t : turn) : env :=
  mkEnv (on_connect e) (turns e ++ [t]) (on_disconnect e).

(** Among the calls made since [before], one is not a read from the
    transport: the frame was passed on to somebody. *)
Definition handed_on (before after : list action) : Prop :=
  exists a, In a (skipn (List.length before) after) /\ is_receive a = false.

(** The role allow-list as the specification words it; main.py has no such
    list. *)
Definition spec_role_allow_list : list string :=
  ["driver"; "customer"; "admin"].

(** The same call with the role argument replaced. *)
Definition with_role (role : string) (a : action) : action :=
  match a with
  | ManagerConnect ws _ => ManagerConnect ws role
  | ManagerDisconnect ws _ => ManagerDisconnect ws role
  | other => other
  end.

(** *** Sample runs *)

(** A connection on which nothing has arrived yet. *)
Definition quiet : env := mkEnv (Ret tt) [] (Ret tt).

(** A connection on which one frame, "hello", has arrived. *)
Definition chatting : env :=
  mkEnv (Ret tt) [mkTurn (Ret "hello") (Ret tt)] (Ret tt).

Definition runtime_error : exception :=
  mkException IsOther "RuntimeError" "WebSocket is not connected".

Definition client_gone : exception :=
  mkException IsWebSocketDisconnect "WebSocketDisconnect" "1001".

End WS.

(** ** Configuration (config.py) *)

(** The fields of [Settings] that main.py reads.  [MAPBOX_TOKEN] is [None]
    when the settings object carries no such attribute, the case
    [getattr(settings, "MAPBOX_TOKEN", None)] provides for. *)
Record Settings : Type := mkSettings {
  PROJECT_NAME : string;
  VERSION : string;
  API_V1_STR : string;
  REDIS_URL : string;
  MAPBOX_TOKEN : option string
}.

(** ** Application lifespan *)

Module Lifespan.

Inductive action : Type :=
| EngineBeginEnter
| RunSyncCreateAll
| EngineBeginExit (clean : bool)
| StartSubscriber (url : string)
| Yield
| StopSubscriber
| EngineDispose.

(** Outcome of each awaited call.  [on_yield] is how the host resumes the
    generator: [Ret] at shutdown, [Raise] when it throws into it,
    [Pending] while the application is still serving. *)
Record env : Type := mkEnv {
  on_begin_enter : result unit;
  on_create_all : result unit;
  on_begin_exit : result unit;
  on_start_subscriber : result unit;
  on_yield : result unit;
  on_stop_subscriber : result unit;
  on_dispose : result unit
}.

(** [async with cm: body].  The exit call is told whether the body
    completed; the transaction context of [engine.begin()] does not
    swallow the body's exception, so it is raised again once the exit call
    has returned. *)
Definition async_with {A} (enter : run action unit) (body : run action A)
    (exit : bool -> run action unit) : run action A :=
  enter ;;;
  match body with
  | (Ret a, t) => (Ret tt, t) ;;; exit true ;;; ret a
  | (Raise e, t) => (Ret tt, t) ;;; exit false ;;; (Raise e, [])
  | (Pending, t) => (Pending, t)
  end.

Definition lifespan (settings : Settings) (e : env) : run action unit :=
  (* Startup *)
  async_with
    (call EngineBeginEnter (on_begin_enter e))
    (call RunSyncCreateAll (on_create_all e))
    (fun clean => call (EngineBeginExit clean) (on_begin_exit e)) ;;;
  call (StartSubscriber (REDIS_URL settings)) (on_start_subscriber e) ;;;
  call Yield (on_yield e) ;;;
  (* Shutdown *)
  call StopSubscriber (on_stop_subscriber e) ;;;
  call EngineDispose (on_dispose e).

(** Position of the first occurrence of an action in a trace. *)
Definition action_eqb (a b : action) : bool :=
  match a, b with
  | EngineBeginEnter, EngineBeginEnter => true
  | RunSyncCreateAll, RunSyncCreateAll => true
  | EngineBeginExit c, EngineBeginExit d => Bool.eqb c d
  | StartSubscriber u, StartSubscriber v => String.eqb u v
  | Yield, Yield => true
  | StopSubscriber, StopSubscriber => true
  | EngineDispose, EngineDispose => true
  | _, _ => false
  end.

Fixpoint index_of (a : action) (t : list action) : option nat :=
  match t with
  | [] => None
  | b :: rest =>
      if action_eqb a b then Some 0
      else option_map S (index_of a rest)
  end.

(** [a] is called, and [b] is called later than [a]. *)
Definition strictly_before (a b : action) (t : list action) : Prop :=
  exists i j, index_of a t = Some i /\ index_of b t = Some j /\ i < j.

(** *** Sample runs *)

Definition sample_settings : Settings :=
  mkSettings "Breakdown Assistance Technician/Admin Backend" "1.0.0" "/api"
             "redis://localhost:6379/0" (Some "").

(** Every call returns, and the host shuts the application down. *)
Definition all_well : env :=
  mkEnv (Ret tt) (Ret tt) (Ret tt) (Ret tt) (Ret tt) (Ret tt) (Ret tt).

(** [create_all] fails on a database that cannot be reached. *)
Definition schema_fails : env :=
  mkEnv (Ret tt)
        (Raise (mkException IsOther "OperationalError" "connection refused"))
        (Ret tt) (Ret tt) (Ret tt) (Ret tt) (Ret tt).

End Lifespan.

(** ** HTTP handlers *)

Module Http.

Record Request : Type := mkRequest {
  url : string;
  method : string
}.

Record JSONResponse : Type := mkJSONResponse {
  status_code : Z;
  content : json
}.

(** The two readings of [datetime.now()] a handler formats:
    [strftime("%Y%m%d_%H%M%S_%f")] and [isoformat()]. *)
Record clock : Type := mkClock {
  now_strftime : string;
  now_isoformat : string
}.

(** Truth value of what [getattr(settings, "MAPBOX_TOKEN", None)] yields:
    [None] and the empty string are false. *)
Definition truthy (token : option string) : bool :=
  match token with
  | None => false
  | Some t => negb (String.eqb t "")
  end.

Definition json_of_token (token : option string) : json :=
  match token with
  | None => JNull
  | Some t => JStr t
  end.

Definition mapbox_token_path (settings : Settings) : string :=
  (API_V1_STR settings ++ "/mapbox-token")%string.

Definition get_mapbox_token (settings : Settings) : json :=
  let token := MAPBOX_TOKEN settings in
  if negb (truthy token)
  then JDict [("mapbox_token", JNull)]
  else JDict [("mapbox_token", json_of_token token)].

(** The logging calls of the handlers write to the console only and are
    left out; the response does not depend on them.  Each definition is the
    response a handler builds from values that [JSONResponse] can render;
    rendering what cannot be encoded is [Render.dumps], and the path on
    which a handler raises for it is in [App.exception_middleware]. *)

Definition general_exception_handler (c : clock) (request : Request)
    (exc : exception) : JSONResponse :=
  let error_id := now_strftime c in
  let error_details := JDict [
    ("error_id", JStr error_id);
    ("error_type", JStr (exc_type exc));
    ("error_message", JStr (exc_text exc));
    ("path", JStr (url request));
    ("method", JStr (method request));
    ("timestamp", JStr (now_isoformat c))
  ] in
  mkJSONResponse 500 (JDict [
    ("success", JBool false);
    ("error", error_details);
    ("message",
     JStr "An internal server error occurred. Check logs for details.")
  ]).

Definition http_exception_handler (c : clock) (request : Request)
    (exc_status_code : Z) (exc_detail : json) : JSONResponse :=
  let error_details := JDict [
    ("error_type", JStr "HTTPException");
    ("status_code", JInt exc_status_code);
    ("error_message", exc_detail);
    ("path", JStr (url request));
    ("method", JStr (method request));
    ("timestamp", JStr (now_isoformat c))
  ] in
  mkJSONResponse exc_status_code (JDict [
    ("success", JBool false);
    ("error", error_details);
    ("message", exc_detail)
  ]).

Definition validation_exception_handler (c : clock) (request : Request)
    (exc_errors : list json) : JSONResponse :=
  let error_details := JDict [
    ("error_type", JStr "ValidationError");
    ("error_message", JStr "Request validation failed");
    ("validation_errors", JList exc_errors);
    ("path", JStr (url request));
    ("method", JStr (method request));
    ("timestamp", JStr (now_isoformat c))
  ] in
  mkJSONResponse 422 (JDict [
    ("success", JBool false);
    ("error", error_details);
    ("message",
     JStr "Request validation failed. Check the validation_errors field for details.")
  ]).

Definition response_validation_exception_handler (c : clock)
    (request : Request) (exc_errors : list json) : JSONResponse :=
  let error_id := now_strftime c in
  let error_details := JDict [
    ("error_id", JStr error_id);
    ("error_type", JStr "ResponseValidationError");
    ("error_message",
     JStr "Response validation failed - likely a data type mismatch");
    ("validation_errors", JList exc_errors);
    ("path", JStr (url request));
    ("method", JStr (method request));
    ("timestamp", JStr (now_isoformat c))
  ] in
  mkJSONResponse 500 (JDict [
    ("success", JBool false);
    ("error", error_details);
    ("message",
     JStr "Internal server error: Response validation failed. This usually indicates a data type mismatch in the database or model.")
  ]).

(** The table built by the four [@app.exception_handler(cls)]
    registrations: the handler registered for the nearest class of the
    exception, [Exception] being the base of all of them.  This is the
    table only; which of its entries the framework calls for an exception
    that leaves a route, and what it sends when it calls none, is
    [App.handle_exception] below. *)
Definition registered_handler (c : clock) (request : Request)
    (exc : exception) : JSONResponse :=
  match exc_kind_of exc with
  | IsHTTPException sc d => http_exception_handler c request sc d
  | IsRequestValidationError errs =>
      validation_exception_handler c request errs
  | IsResponseValidationError errs =>
      response_validation_exception_handler c request errs
  | IsWebSocketDisconnect | IsOther =>
      general_exception_handler c request exc
  end.

(** *** Sample requests *)

Definition sample_clock : clock :=
  mkClock "20240501_101500_000123" "2024-05-01T10:15:00.000123".

Definition sample_request : Request :=
  mkRequest "http://testserver/api/bookings/42" "GET".

Definition not_found : exception :=
  mkException (IsHTTPException 404 (JStr "Booking not found"))
              "HTTPException" "404: Booking not found".

Definition value_error : exception :=
  mkException IsOther "ValueError" "invalid literal for int()".

Definition with_token (token : option string) : Settings :=
  mkSettings "Breakdown Assistance Technician/Admin Backend" "1.0.0" "/api"
             "redis://localhost:6379/0" token.

End Http.

(** ** The notifications bridge *)

Module Bridge.

(** Modelled from the spec: the state of [notifications_manager]
    (core.notifications_websocket, not among the sources).  The bridge
    holds at most one subscription, run by one background task. *)
Inductive state : Type :=
| NotStarted
| Started (url : string).

(** Modelled from the spec: what stopping does to the outside world, for
    the absent [notifications_manager]: the background task is cancelled,
    its cancellation awaited, and the subscription released. *)
Inductive action : Type :=
| CancelTask
| AwaitCancelled
| ReleaseSubscription (url : string).

(** Modelled from the spec: [notifications_manager.stop_subscriber()],
    absent from the sources: "cancels the background task and releases the
    subscription; idempotent - calling when not started is a no-op". *)
Definition stop_subscriber (s : state) : state * run action unit :=
  match s with
  | NotStarted => (NotStarted, ret tt)
  | Started url =>
      (NotStarted,
       call CancelTask (Ret tt) ;;;
       call AwaitCancelled (Ret tt) ;;;
       call (ReleaseSubscription url) (Ret tt))
  end.

End Bridge.

(** ** Request logging middleware *)

Module Middleware.

(** The two lines [log_requests] writes with [logger.info].  The response
    line carries the status code and the two clock readings whose
    difference is the processing time it prints. *)
Inductive log_line : Type :=
| RequestLine (method url : string)
| ResponseLine (status : Z) (start finish : Z).

Section WithResponse.
(** Whatever the rest of the stack answers, and the status code read off
    it. *)
Variable Response : Type.
Variable status_of : Response -> Z.

Inductive action : Type :=
| LoggerInfo (line : log_line)
| CallNext (request : Http.Request).

(** The two readings of [datetime.now()] and what [call_next(request)]
    yields. *)
Record env : Type := mkEnv {
  now_start : Z;
  on_call_next : result Response;
  now_finish : Z
}.

Definition log_requests (request : Http.Request) (e : env)
  : run action Response :=
  let start_time := now_start e in
  call (LoggerInfo (RequestLine (Http.method request) (Http.url request)))
       (Ret tt) ;;;
  response <- call (CallNext request) (on_call_next e) ;;
  call (LoggerInfo (ResponseLine (status_of response) start_time (now_finish e)))
       (Ret tt) ;;;
  ret response.

Definition is_response_line (a : action) : bool :=
  match a with
  | LoggerInfo (ResponseLine _ _ _) => true
  | _ => false
  end.

Definition is_call_next (a : action) : bool :=
  match a with
  | CallNext _ => true
  | _ => false
  end.
End WithResponse.

Arguments mkEnv {Response} now_start on_call_next now_finish.
Arguments now_start {Response} e.
Arguments on_call_next {Response} e.
Arguments now_finish {Response} e.
Arguments log_requests {Response} status_of request e.

End Middleware.

(** ** Further vocabulary *)

Module Obs.

(** The connection a call of the WebSocket handler is made on. *)
Definition action_ws (a : WS.action) : nat :=
  match a with
  | WS.ManagerConnect ws _ | WS.ManagerDisconnect ws _
  | WS.ReceiveText ws | WS.SendText ws _ => ws
  end.

(** The text a call writes to the transport, if it writes one. *)
Definition sent_text (a : WS.action) : option string :=
  match a with
  | WS.SendText _ text => Some text
  | _ => None
  end.

Definition is_send (a : WS.action) : bool :=
  match sent_text a with Some _ => true | None => false end.

(** The turn delivers the frame "ping". *)
Definition is_ping (t : WS.turn) : bool :=
  match WS.on_receive t with
  | Ret data => String.eqb data "ping"
  | _ => false
  end.

(** The calls of [lifespan] in the order of the source, the exit of the
    [engine.begin()] block being told whether its body completed. *)
Definition source_order (settings : Settings) (clean : bool)
  : list Lifespan.action :=
  [Lifespan.EngineBeginEnter; Lifespan.RunSyncCreateAll;
   Lifespan.EngineBeginExit clean;
   Lifespan.StartSubscriber (REDIS_URL settings); Lifespan.Yield;
   Lifespan.StopSubscriber; Lifespan.EngineDispose].

Definition returned {A} (r : result A) : bool :=
  match r with Ret _ => true | _ => false end.

(** The keys of a dict, in insertion order. *)
Definition keys (j : json) : list string :=
  match j with
  | JDict fields => map fst fields
  | _ => []
  end.

End Obs.

(** ** Rendering a body *)

Module Render.

(** Python values as a handler hands them to [JSONResponse]: what
    [exc.errors()] holds.  [PList] is a list or a tuple; [PObject] is any
    object the JSON encoder has no rule for (an exception instance, an ORM
    row), known by the name of its type. *)
Inductive pyvalue : Type :=
| PNone
| PBool (b : bool)
| PInt (n : Z)
| PStr (s : string)
| PList (items : list pyvalue)
| PDict (fields : list (string * pyvalue))
| PObject (type_name : string).

(** The first failure in the order of traversal, or all the results. *)
Fixpoint sequence {A} (l : list (string + A)) : string + list A :=
  match l with
  | [] => inr []
  | inl t :: _ => inl t
  | inr a :: rest =>
      match sequence rest with
      | inl t => inl t
      | inr others => inr (a :: others)
      end
  end.

Definition keyed {A} (k : string) (r : string + A) : string + (string * A) :=
  match r with
  | inl t => inl t
  | inr a => inr (k, a)
  end.

(** [json.dumps], as [JSONResponse.render] calls it: the encoded value, or
    the type name of the first object met that cannot be encoded, for which
    it raises [TypeError]. *)
Fixpoint dumps (v : pyvalue) : string + json :=
  match v with
  | PNone => inr JNull
  | PBool b => inr (JBool b)
  | PInt n => inr (JInt n)
  | PStr s => inr (JStr s)
  | PList items =>
      match sequence (map dumps items) with
      | inl t => inl t
      | inr js => inr (JList js)
      end
  | PDict fields =>
      match sequence (map (fun kv => keyed (fst kv) (dumps (snd kv))) fields) with
      | inl t => inl t
      | inr js => inr (JDict js)
      end
  | PObject t => inl t
  end.

Definition dumps_all (values : list pyvalue) : string + list json :=
  sequence (map dumps values).

Definition type_error (type_name : string) : exception :=
  mkException IsOther "TypeError"
    ("Object of type " ++ type_name ++ " is not JSON serializable")%string.

End Render.

(** ** The application: what becomes of an exception that leaves a route

    The layers FastAPI builds around the routes, as far as exceptions go,
    from the arguments main.py gives it: inside, the exception middleware
    with the handlers registered for classes; outside, the server-error
    middleware, which is given the handler registered for [Exception] and
    the [debug] flag. *)

Module App.
Import Http Render.

(** [FastAPI(..., debug=True)], main.py line 56. *)
Definition debug : bool := true.

(** The class of an exception as the lookup of handlers sees it.
    [HTTPException] in main.py is FastAPI's class; it derives from
    Starlette's, which the router raises itself (404, 405) and for which
    FastAPI installs a handler of its own. *)
Inductive exc_class : Type :=
| FastAPIHTTPException (status_code : Z) (detail : json)
| StarletteHTTPException (status_code : Z) (detail : json)
| RequestValidationError (errors : list pyvalue)
| ResponseValidationError (errors : list pyvalue)
| Unregistered.

Record raised : Type := mkRaised {
  class_of : exc_class;
  type_name : string;
  text : string
}.

(** The exception as [general_exception_handler] and the traceback page
    read it: the name of its type and its text. *)
Definition as_exception (x : raised) : exception :=
  mkException IsOther (type_name x) (text x).

(** What is sent to the client. *)
Inductive answer : Type :=
| HandlerResponse (r : JSONResponse)
| BuiltinHTTPResponse (status_code : Z) (detail : json)
| DebugResponse (e : exception).

(** [BuiltinHTTPResponse] is the answer of FastAPI's own handler, with the
    status of the exception; [DebugResponse] is the traceback page of the
    server-error middleware, sent with status 500. *)
Definition answer_status (a : answer) : Z :=
  match a with
  | HandlerResponse r => Http.status_code r
  | BuiltinHTTPResponse sc _ => sc
  | DebugResponse _ => 500
  end.

Definition started_error : exception :=
  mkException IsOther "RuntimeError"
    "Caught handled exception, but response already started.".

Inductive handled : Type :=
| Answer (a : answer)
| Escape (e : exception).

(** The handler's response once its body is rendered, or the [TypeError]
    the handler raises when [exc.errors()] cannot be encoded. *)
Definition rendered (build : list json -> JSONResponse)
    (errors : list pyvalue) : handled :=
  match dumps_all errors with
  | inr js => Answer (HandlerResponse (build js))
  | inl t => Escape (type_error t)
  end.

(** The exception middleware: an exception for whose class no handler is
    registered is raised on; for the others the handler is called, unless
    the response has already started. *)
Definition exception_middleware (c : clock) (request : Request) (x : raised)
    (response_started : bool) : handled :=
  match class_of x with
  | Unregistered => Escape (as_exception x)
  | FastAPIHTTPException sc d =>
      if response_started then Escape started_error
      else Answer (HandlerResponse (http_exception_handler c request sc d))
  | StarletteHTTPException sc d =>
      if response_started then Escape started_error
      else Answer (BuiltinHTTPResponse sc d)
  | RequestValidationError errors =>
      if response_started then Escape started_error
      else rendered (validation_exception_handler c request) errors
  | ResponseValidationError errors =>
      if response_started then Escape started_error
      else rendered (response_validation_exception_handler c request) errors
  end.

(** What the client is sent, and what is raised to the server. *)
Record outcome : Type := mkOutcome {
  sent : option answer;
  reraised : option exception
}.

(** The server-error middleware: in debug mode it answers with the
    traceback page, otherwise with what the handler registered for
    [Exception] returns; the answer is sent if the response has not
    started, and the exception is always raised again. *)
Definition server_error_middleware (debug : bool) (c : clock)
    (request : Request) (h : handled) (response_started : bool) : outcome :=
  match h with
  | Answer a => mkOutcome (Some a) None
  | Escape e =>
      let response :=
        if debug then DebugResponse e
        else HandlerResponse (general_exception_handler c request e) in
      mkOutcome (if response_started then None else Some response) (Some e)
  end.

Definition handle_exception (debug : bool) (c : clock) (request : Request)
    (x : raised) (response_started : bool) : outcome :=
  server_error_middleware debug c request
    (exception_middleware c request x response_started) response_started.

(** *** Sample exceptions *)

Definition value_error_raised : raised :=
  mkRaised Unregistered "ValueError" "invalid literal for int()".




End App.

(** * Properties *)

(** ** The read loop *)

Section ReadLoop.
Import WS.
Variable ws : nat.

(** One turn unfolded: what the loop does with the answers of a turn. *)
Lemma read_loop_cons t rest :
  read_loop ws (t :: rest) =
  match on_receive t with
  | Ret data =>
      if String.eqb data "ping"
      then match on_send t with
           | Ret _ => (fst (read_loop ws rest),
                       [ReceiveText ws; SendText ws "pong"]
                         ++ snd (read_loop ws rest))
           | Raise x => (Raise x, [ReceiveText ws; SendText ws "pong"])
           | Pending => (Pending, [ReceiveText ws; SendText ws "pong"])
           end
      else (fst (read_loop ws rest),
            [ReceiveText ws] ++ snd (read_loop ws rest))
  | Raise x => (Raise x, [ReceiveText ws])
  | Pending => (Pending, [ReceiveText ws])
  end.
Proof.
  cbn [read_loop]. unfold bind, call, ret.
  destruct (on_receive t) as [data|x|]; try reflexivity.
  destruct (String.eqb data "ping").
  - destruct (on_send t) as [[]|x|]; try reflexivity.
    now destruct (read_loop ws rest).
  - now destruct (read_loop ws rest).
Qed.

(** [while True] has no normal exit. *)
Lemma read_loop_never_returns ts u : fst (read_loop ws ts) <> Ret u.
Proof.
  induction ts as [|t rest IH]; [discriminate|].
  rewrite read_loop_cons.
  destruct (on_receive t) as [data|x|]; try discriminate.
  destruct (String.eqb data "ping"); [|exact IH].
  destruct (on_send t) as [[]|x|]; try discriminate. exact IH.
Qed.

Lemma read_loop_exits ts :
  fst (read_loop ws ts) = Pending \/ exists x, fst (read_loop ws ts) = Raise x.
Proof.
  pose proof (read_loop_never_returns ts) as H.
  destruct (fst (read_loop ws ts)) as [u|x|]; eauto.
  now destruct (H u).
Qed.

(** Completed turns only add their calls in front of what follows. *)
Lemma read_loop_app pre more :
  forallb turn_completes pre = true ->
  read_loop ws (pre ++ more) =
  (fst (read_loop ws more),
   flat_map (turn_actions ws) pre ++ snd (read_loop ws more)).
Proof.
  induction pre as [|t pre IH]; intros Hpre.
  - cbn [app flat_map]. now destruct (read_loop ws more).
  - cbn [forallb] in Hpre. apply andb_prop in Hpre as [Ht Hpre].
    rewrite <- app_comm_cons, read_loop_cons, (IH Hpre).
    cbn [flat_map fst snd]. unfold turn_completes in Ht. unfold turn_actions.
    destruct (on_receive t) as [data|x|]; try discriminate.
    destruct (String.eqb data "ping").
    + destruct (on_send t) as [[]|x|]; try discriminate.
      now rewrite <- app_assoc.
    + now rewrite <- app_assoc.
Qed.

(** The loop itself never touches the registry. *)
Lemma read_loop_no_registry ts :
  forallb (fun a => negb (registry_call a)) (snd (read_loop ws ts)) = true.
Proof.
  induction ts as [|t rest IH]; [reflexivity|].
  rewrite read_loop_cons.
  destruct (on_receive t) as [data|x|]; try reflexivity.
  destruct (String.eqb data "ping"); [|exact IH].
  destruct (on_send t) as [[]|x|]; try reflexivity. exact IH.
Qed.

Lemma read_loop_with_role role ts :
  map (with_role role) (snd (read_loop ws ts)) = snd (read_loop ws ts).
Proof.
  induction ts as [|t rest IH]; [reflexivity|].
  rewrite read_loop_cons.
  destruct (on_receive t) as [data|x|]; try reflexivity.
  destruct (String.eqb data "ping").
  - destruct (on_send t) as [[]|x|]; try reflexivity.
    cbn [snd app map with_role]. now rewrite IH.
  - cbn [snd app map with_role]. now rewrite IH.
Qed.

(** The handler once the connection is registered. *)
Lemma websocket_endpoint_connected role e :
  on_connect e = Ret tt ->
  websocket_endpoint ws role e =
  let r := try_except_disconnect (read_loop ws (turns e))
             (call (ManagerDisconnect ws role) (on_disconnect e)) in
  (fst r, ManagerConnect ws role :: snd r).
Proof.
  intros Hc. unfold websocket_endpoint. rewrite Hc.
  unfold bind, call at 1.
  now destruct (try_except_disconnect _ _).
Qed.

(** An open connection: the handler is suspended on the next read. *)
Lemma websocket_endpoint_open role e :
  connection_open e = true ->
  websocket_endpoint ws role e =
  (Pending,
   ManagerConnect ws role
     :: flat_map (turn_actions ws) (turns e) ++ [ReceiveText ws]).
Proof.
  unfold connection_open. intros Ho.
  destruct (on_connect e) as [[]|x|] eqn:Hc; try discriminate.
  rewrite (websocket_endpoint_connected role e Hc).
  pose proof (read_loop_app (turns e) [] Ho) as Hl.
  rewrite app_nil_r in Hl. rewrite Hl. reflexivity.
Qed.

Lemma then_turn_open role e t :
  connection_open e = true ->
  websocket_endpoint ws role (then_turn e t) =
  let r := try_except_disconnect (read_loop ws [t])
             (call (ManagerDisconnect ws role) (on_disconnect e)) in
  (fst r,
   ManagerConnect ws role
     :: flat_map (turn_actions ws) (turns e) ++ snd r).
Proof.
  unfold connection_open. intros Ho.
  destruct (on_connect e) as [[]|x|] eqn:Hc; try discriminate.
  rewrite (websocket_endpoint_connected role (then_turn e t) Hc).
  cbn [then_turn turns on_disconnect].
  rewrite (read_loop_app _ [t] Ho).
  unfold try_except_disconnect. cbn zeta.
  destruct (fst (read_loop ws [t])) as [u|x|] eqn:Hr;
    destruct (read_loop ws [t]) as [r tr]; cbn [fst snd] in *; subst r;
    try reflexivity.
  destruct (is_disconnect x); [|reflexivity].
  unfold call. cbn [fst snd]. now rewrite app_assoc.
Qed.

End ReadLoop.

(** ** The WebSocket endpoint *)

Section Endpoint.
Import WS.

Lemma read_loop_never_disconnects ws ts w q :
  ~ In (ManagerDisconnect w q) (snd (read_loop ws ts)).
Proof.
  intros Hin.
  pose proof (read_loop_no_registry ws ts) as Hall.
  rewrite forallb_forall in Hall. now apply Hall in Hin.
Qed.

(** C1, as the handler has it: the handler checks neither role nor key.
    Whatever the role string, its first call is
    [manager.connect(websocket, role)], and the role is only passed on:
    with another role the handler makes the same calls with the same
    outcome, the role argument apart. *)
Theorem connect_is_unconditional ws role e :
  (exists rest,
      snd (websocket_endpoint ws role e) = ManagerConnect ws role :: rest) /\
  (forall role',
      fst (websocket_endpoint ws role' e) = fst (websocket_endpoint ws role e) /\
      snd (websocket_endpoint ws role' e) =
      map (with_role role') (snd (websocket_endpoint ws role e))).
Proof.
  destruct (on_connect e) as [[]|x|] eqn:Hc.
  - split; [|intros role']; rewrite !(websocket_endpoint_connected _ _ _ Hc);
      cbn zeta; cbn [fst snd]; [eauto|].
    unfold try_except_disconnect, call.
    pose proof (read_loop_with_role ws role' (turns e)) as Hmap.
    destruct (read_loop ws (turns e)) as [[u|x|] tr]; cbn [fst snd] in *;
      [| destruct (is_disconnect x) |];
      cbn [fst snd map with_role]; rewrite ?map_app, Hmap; now split.
  - unfold websocket_endpoint. rewrite Hc. cbn. eauto.
  - unfold websocket_endpoint. rewrite Hc. cbn. eauto.
Qed.

(** C1, as stated, fails: a role outside the allow-list is handed to
    [manager.connect] like any other. *)
Lemma unlisted_role_is_connected :
  ~ In "intruder" spec_role_allow_list /\
  In (ManagerConnect 7 "intruder")
     (snd (websocket_endpoint 7 "intruder" quiet)).
Proof.
  split.
  - cbn. intros [H|[H|[H|[]]]]; discriminate.
  - cbn. now left.
Qed.

(** C2: on an open connection a "ping" frame is answered by one
    [send_text("pong")] on that connection, after which the handler reads
    again; no call on the registry is made. *)
Theorem ping_yields_one_pong ws role e :
  connection_open e = true ->
  let before := websocket_endpoint ws role e in
  let after :=
    websocket_endpoint ws role (then_turn e (mkTurn (Ret "ping") (Ret tt))) in
  fst before = Pending /\
  fst after = Pending /\
  snd after = snd before ++ [SendText ws "pong"; ReceiveText ws] /\
  filter registry_call (snd after) = filter registry_call (snd before).
Proof.
  intros Ho. cbn zeta.
  rewrite (then_turn_open ws role e _ Ho), (websocket_endpoint_open ws role e Ho).
  cbn [fst snd]. repeat split.
  - cbn. now rewrite <- app_assoc.
  - cbn. rewrite !filter_app. cbn. reflexivity.
Qed.

Lemma ping_yields_one_pong_witness :
  connection_open chatting = true /\
  snd (websocket_endpoint 7 "driver"
         (then_turn chatting (mkTurn (Ret "ping") (Ret tt)))) =
  [ManagerConnect 7 "driver"; ReceiveText 7; ReceiveText 7;
   SendText 7 "pong"; ReceiveText 7].
Proof.
  split; [reflexivity|].
  exact (proj1 (proj2 (proj2
           (ping_yields_one_pong 7 "driver" chatting eq_refl)))).
Defined.

(** C3, as the handler has it: the connection is unregistered when the
    read loop ends with [WebSocketDisconnect], raised by [receive_text()]
    or [send_text()]: [manager.disconnect(websocket, role)] is then the
    last call and its outcome is the handler's.  Any other exception
    leaves the handler as it is, and [manager.disconnect] is not called. *)
Theorem cleanup_follows_disconnect ws role e x :
  on_connect e = Ret tt ->
  fst (read_loop ws (turns e)) = Raise x ->
  let r := websocket_endpoint ws role e in
  (is_disconnect x = true ->
   fst r = on_disconnect e /\
   exists t, snd r = t ++ [ManagerDisconnect ws role] /\
             forall w q, ~ In (ManagerDisconnect w q) t) /\
  (is_disconnect x = false ->
   fst r = Raise x /\ forall w q, ~ In (ManagerDisconnect w q) (snd r)).
Proof.
  intros Hc Hx. cbn zeta.
  rewrite (websocket_endpoint_connected ws role e Hc). cbn zeta.
  pose proof (read_loop_never_disconnects ws (turns e)) as Hno.
  unfold try_except_disconnect, call.
  destruct (read_loop ws (turns e)) as [r tr]. cbn [fst snd] in *. subst r.
  split; intros Hd; rewrite Hd; cbn [fst snd].
  - split; [reflexivity|].
    exists (ManagerConnect ws role :: tr). split; [reflexivity|].
    intros w q [H|H]; [discriminate|]. exact (Hno w q H).
  - split; [reflexivity|].
    intros w q [H|H]; [discriminate|]. exact (Hno w q H).
Qed.

Lemma cleanup_follows_disconnect_witness :
  fst (websocket_endpoint 7 "driver"
         (mkEnv (Ret tt) [mkTurn (Raise client_gone) (Ret tt)] (Ret tt)))
  = Ret tt /\
  exists t,
    snd (websocket_endpoint 7 "driver"
           (mkEnv (Ret tt) [mkTurn (Raise client_gone) (Ret tt)] (Ret tt)))
    = t ++ [ManagerDisconnect 7 "driver"] /\
    forall w q, ~ In (ManagerDisconnect w q) t.
Proof.
  exact (proj1 (cleanup_follows_disconnect 7 "driver"
                  (mkEnv (Ret tt) [mkTurn (Raise client_gone) (Ret tt)] (Ret tt))
                  client_gone eq_refl eq_refl) eq_refl).
Defined.

(** C3, as stated, fails: the loop left through an exception that is not
    [WebSocketDisconnect], and the connection was not unregistered. *)
Lemma error_exit_skips_cleanup :
  let r := websocket_endpoint 7 "driver"
             (mkEnv (Ret tt) [mkTurn (Raise runtime_error) (Ret tt)] (Ret tt)) in
  fst r = Raise runtime_error /\
  ~ In (ManagerDisconnect 7 "driver") (snd r).
Proof.
  cbn. split; [reflexivity|].
  intros [H|[H|[]]]; discriminate.
Qed.

(** C6, as the handler has it: a text frame other than "ping" is dropped.
    The handler makes no call with it, neither on a message handler nor on
    the registry nor on the transport, and reads the next frame. *)
Theorem other_frames_are_dropped ws role e data o :
  connection_open e = true ->
  String.eqb data "ping" = false ->
  let before := websocket_endpoint ws role e in
  let after := websocket_endpoint ws role (then_turn e (mkTurn (Ret data) o)) in
  fst before = Pending /\
  fst after = Pending /\
  snd after = snd before ++ [ReceiveText ws].
Proof.
  intros Ho Hd. cbn zeta.
  rewrite (then_turn_open ws role e _ Ho), (websocket_endpoint_open ws role e Ho).
  rewrite read_loop_cons. cbn [on_receive]. rewrite Hd.
  cbn [fst snd]. repeat split.
  cbn. now rewrite <- app_assoc.
Qed.

Lemma other_frames_are_dropped_witness :
  snd (websocket_endpoint 7 "driver"
         (then_turn quiet (mkTurn (Ret "hello") (Ret tt)))) =
  [ManagerConnect 7 "driver"; ReceiveText 7; ReceiveText 7].
Proof.
  exact (proj2 (proj2
           (other_frames_are_dropped 7 "driver" quiet "hello" (Ret tt)
              eq_refl eq_refl))).
Defined.

(** C6, as stated, fails: after the frame "hello" the handler only reads
    again; the frame is handed to nobody. *)
Lemma hello_is_not_handed_on :
  connection_open quiet = true /\
  String.eqb "hello" "ping" = false /\
  ~ handed_on
      (snd (websocket_endpoint 7 "driver" quiet))
      (snd (websocket_endpoint 7 "driver"
              (then_turn quiet (mkTurn (Ret "hello") (Ret tt))))).
Proof.
  repeat split.
  intros [a [Hin Hrecv]]. cbn in Hin.
  destruct Hin as [<-|[]]. discriminate.
Qed.

End Endpoint.

(** ** Startup and shutdown *)

Section LifespanOrder.
Import Lifespan.
Variable settings : Settings.

Lemma lifespan_unfold e :
  lifespan settings e =
  async_with
    (call EngineBeginEnter (on_begin_enter e))
    (call RunSyncCreateAll (on_create_all e))
    (fun clean => call (EngineBeginExit clean) (on_begin_exit e)) ;;;
  call (StartSubscriber (REDIS_URL settings)) (on_start_subscriber e) ;;;
  call Yield (on_yield e) ;;;
  call StopSubscriber (on_stop_subscriber e) ;;;
  call EngineDispose (on_dispose e).
Proof. reflexivity. Qed.

(** Membership in a short explicit trace, decided by comparing heads. *)
Ltac absent :=
  intros; cbn [In] in *; intuition (try discriminate; try congruence).

(** Positions in an explicit trace. *)
Ltac positions i j :=
  exists i, j; cbn [index_of action_eqb option_map];
  rewrite ?String.eqb_refl; cbn [option_map];
  repeat split; lia.

Ltac next o :=
  destruct o as [[]|?x|]; cbn [bind call ret async_with fst snd app].

(** Startup runs to the point where the application serves: all calls of
    the startup half, in the order of the source. *)
Lemma lifespan_trace_served e :
  on_begin_enter e = Ret tt ->
  on_create_all e = Ret tt ->
  on_begin_exit e = Ret tt ->
  on_start_subscriber e = Ret tt ->
  exists r rest,
    lifespan settings e =
    (r, [EngineBeginEnter; RunSyncCreateAll; EngineBeginExit true;
         StartSubscriber (REDIS_URL settings); Yield] ++ rest) /\
    (on_yield e = Ret tt ->
     rest = StopSubscriber ::
            match on_stop_subscriber e with
            | Ret _ => [EngineDispose]
            | _ => []
            end) /\
    (on_yield e <> Ret tt -> rest = []).
Proof.
  intros H1 H2 H3 H4. rewrite lifespan_unfold, H1, H2, H3, H4.
  cbn [bind call ret async_with fst snd app].
  next (on_yield e).
  - next (on_stop_subscriber e).
    + destruct (on_dispose e) as [[]|?x|]; do 2 eexists;
        (split; [reflexivity|]); split; intros; congruence.
    + do 2 eexists; (split; [reflexivity|]); split; intros; congruence.
    + do 2 eexists; (split; [reflexivity|]); split; intros; congruence.
  - do 2 eexists; (split; [reflexivity|]); split; intros; congruence.
  - do 2 eexists; (split; [reflexivity|]); split; intros; congruence.
Qed.

(** C4: schema creation comes strictly before the subscriber is started.
    In every run in which [start_subscriber] is called, [create_all] was
    called earlier and returned, and so did the exit of the
    [engine.begin()] block; when the three startup calls on the engine
    return, the subscriber is started with [settings.REDIS_URL]; and when
    [create_all] raises, [start_subscriber] is not called and the
    application never gets to serve. *)
Theorem schema_before_subscriber e :
  let t := snd (lifespan settings e) in
  let start := StartSubscriber (REDIS_URL settings) in
  (In start t ->
   strictly_before RunSyncCreateAll start t /\
   on_create_all e = Ret tt /\ on_begin_exit e = Ret tt) /\
  (on_begin_enter e = Ret tt -> on_create_all e = Ret tt ->
   on_begin_exit e = Ret tt -> In start t) /\
  (forall x, on_create_all e = Raise x ->
   (forall url, ~ In (StartSubscriber url) t) /\ ~ In Yield t).
Proof.
  cbn zeta. rewrite lifespan_unfold.
  destruct e as [o1 o2 o3 o4 o5 o6 o7];
    cbn [on_begin_enter on_create_all on_begin_exit on_start_subscriber
         on_yield on_stop_subscriber on_dispose].
  next o1; [| repeat split; absent ..].
  next o2; [| next o3; repeat split; absent | repeat split; absent].
  next o3; [| repeat split; absent ..].
  split; [intros _; split; [| now split] | split; [intros _ _ _ | discriminate]].
  - next o4; [| positions 1 3 ..].
    next o5; [| positions 1 3 ..].
    next o6; [| positions 1 3 ..].
    next o7; positions 1 3.
  - next o4; [| absent ..]. next o5; [| absent ..].
    next o6; [| absent ..]. next o7; absent.
Qed.

(** C5: at shutdown the subscriber is stopped, and the stop awaited,
    strictly before the engine is disposed of, in the reverse of the
    startup order.  In every run in which [engine.dispose()] is called,
    [stop_subscriber()] was called earlier and returned, after the
    subscriber had been started, itself after schema creation; and once
    startup has completed and the host resumes the hook,
    [stop_subscriber()] is called, followed by [engine.dispose()] when it
    returns. *)
Theorem subscriber_stopped_before_dispose e :
  let t := snd (lifespan settings e) in
  let start := StartSubscriber (REDIS_URL settings) in
  (In EngineDispose t ->
   strictly_before StopSubscriber EngineDispose t /\
   on_stop_subscriber e = Ret tt /\
   strictly_before start StopSubscriber t /\
   strictly_before RunSyncCreateAll start t) /\
  (on_begin_enter e = Ret tt -> on_create_all e = Ret tt ->
   on_begin_exit e = Ret tt -> on_start_subscriber e = Ret tt ->
   on_yield e = Ret tt ->
   In StopSubscriber t /\
   (on_stop_subscriber e = Ret tt -> In EngineDispose t)).
Proof.
  cbn zeta. rewrite lifespan_unfold.
  destruct e as [o1 o2 o3 o4 o5 o6 o7];
    cbn [on_begin_enter on_create_all on_begin_exit on_start_subscriber
         on_yield on_stop_subscriber on_dispose].
  next o1; [| split; absent ..].
  next o2; [| next o3; split; absent | split; absent].
  next o3; [| split; absent ..].
  next o4; [| split; absent ..].
  next o5; [| split; absent ..].
  next o6; [| split; absent ..].
  split.
  - intros _. split; [| split; [reflexivity | split]].
    + next o7; positions 5 6.
    + next o7; positions 3 5.
    + next o7; positions 1 3.
  - intros _ _ _ _ _. next o7; absent.
Qed.

End LifespanOrder.

Section LifespanRuns.
Import Lifespan.

Lemma schema_before_subscriber_witness :
  strictly_before RunSyncCreateAll (StartSubscriber "redis://localhost:6379/0")
    (snd (lifespan sample_settings all_well)) /\
  ~ In Yield (snd (lifespan sample_settings schema_fails)).
Proof.
  split.
  - apply (proj1 (schema_before_subscriber sample_settings all_well)).
    cbn. do 3 right. left. reflexivity.
  - exact (proj2 (proj2 (proj2 (schema_before_subscriber sample_settings
                                  schema_fails)) _ eq_refl)).
Defined.

Lemma subscriber_stopped_before_dispose_witness :
  strictly_before StopSubscriber EngineDispose
    (snd (lifespan sample_settings all_well)) /\
  In StopSubscriber (snd (lifespan sample_settings all_well)).
Proof.
  split.
  - apply (proj1 (subscriber_stopped_before_dispose sample_settings all_well)).
    cbn. do 6 right. left. reflexivity.
  - exact (proj1 (proj2 (subscriber_stopped_before_dispose sample_settings
                           all_well)
                    eq_refl eq_refl eq_refl eq_refl eq_refl)).
Defined.

End LifespanRuns.

(** ** HTTP handlers *)

Section HttpHandlers.
Import Http.

Lemma empty_or_not (t : string) : String.eqb t "" = true <-> t = "".
Proof. apply String.eqb_eq. Qed.

(** C8: the Mapbox token route is served at [API_V1_STR ++ "/mapbox-token"]
    by a handler that reads the settings only.  It answers
    [{"mapbox_token": null}] exactly when [MAPBOX_TOKEN] is absent or the
    empty string, and [{"mapbox_token": t}] with [t] the configured token
    otherwise; being a total function of the settings, it raises
    nothing. *)
Theorem mapbox_token_response settings :
  mapbox_token_path settings = (API_V1_STR settings ++ "/mapbox-token")%string /\
  (get_mapbox_token settings = JDict [("mapbox_token", JNull)] <->
   MAPBOX_TOKEN settings = None \/ MAPBOX_TOKEN settings = Some "") /\
  (forall t, MAPBOX_TOKEN settings = Some t -> t <> "" ->
   get_mapbox_token settings = JDict [("mapbox_token", JStr t)]).
Proof.
  split; [reflexivity|]. unfold get_mapbox_token, truthy, json_of_token.
  destruct (MAPBOX_TOKEN settings) as [t|].
  - destruct (String.eqb t "") eqn:Ht; cbn [negb].
    + apply empty_or_not in Ht. subst t. split.
      * split; [now right | reflexivity].
      * intros t [= <-] Hne. now destruct Hne.
    + split.
      * split; [discriminate|].
        intros [H|[= ->]]; [discriminate|]. discriminate.
      * now intros t' [= <-] _.
  - cbn [negb]. split.
    + split; [now left | reflexivity].
    + discriminate.
Qed.

Lemma mapbox_token_response_witness :
  get_mapbox_token (with_token (Some "pk.test-token")) =
  JDict [("mapbox_token", JStr "pk.test-token")] /\
  get_mapbox_token (with_token (Some "")) = JDict [("mapbox_token", JNull)] /\
  get_mapbox_token (with_token None) = JDict [("mapbox_token", JNull)].
Proof.
  split; [|split].
  - apply (proj2 (proj2 (mapbox_token_response
                           (with_token (Some "pk.test-token"))))
             "pk.test-token" eq_refl).
    discriminate.
  - apply (proj2 (proj1 (proj2 (mapbox_token_response (with_token (Some "")))))).
    right. reflexivity.
  - apply (proj2 (proj1 (proj2 (mapbox_token_response (with_token None))))).
    left. reflexivity.
Defined.



End HttpHandlers.

(** ** The notifications bridge *)

Section BridgeStop.
Import Bridge.

(** C7: [stop_subscriber()] on a bridge that is not started is a no-op: it
    returns, does nothing to the outside world and leaves the state as it
    was.  So a second call right after a first one changes nothing, and
    stopping twice leaves the bridge where stopping once does. *)
Theorem stop_subscriber_idempotent :
  stop_subscriber NotStarted = (NotStarted, (Ret tt, [])) /\
  forall s,
    fst (snd (stop_subscriber s)) = Ret tt /\
    stop_subscriber (fst (stop_subscriber s)) =
    (fst (stop_subscriber s), (Ret tt, [])) /\
    fst (stop_subscriber (fst (stop_subscriber s))) = fst (stop_subscriber s).
Proof.
  split; [reflexivity|].
  intros [|url]; repeat split.
Qed.

End BridgeStop.

(** * Further properties *)

(** ** The WebSocket endpoint as a whole *)

Section EndpointRuns.
Import WS Obs.

(** The calls of a run: the registration, the loop, and the
    unregistration when the loop ends with a disconnect. *)
Lemma websocket_endpoint_trace ws role e :
  snd (websocket_endpoint ws role e) =
  ManagerConnect ws role ::
  match on_connect e with
  | Ret _ =>
      snd (read_loop ws (turns e)) ++
      match fst (read_loop ws (turns e)) with
      | Raise x => if is_disconnect x then [ManagerDisconnect ws role] else []
      | _ => []
      end
  | _ => []
  end.
Proof.
  unfold websocket_endpoint, try_except_disconnect, bind, call.
  destruct (on_connect e) as [[]|x|]; try reflexivity.
  destruct (read_loop ws (turns e)) as [[u|x|] tr]; cbn [fst snd];
    rewrite ?app_nil_r; try reflexivity.
  destruct (is_disconnect x); cbn [fst snd]; now rewrite ?app_nil_r.
Qed.

(** The outcome of a run. *)
Lemma websocket_endpoint_result ws role e :
  fst (websocket_endpoint ws role e) =
  match on_connect e with
  | Ret _ =>
      match fst (read_loop ws (turns e)) with
      | Raise x => if is_disconnect x then on_disconnect e else Raise x
      | other => other
      end
  | other => other
  end.
Proof.
  unfold websocket_endpoint, try_except_disconnect, bind, call.
  destruct (on_connect e) as [[]|x|]; try reflexivity.
  destruct (read_loop ws (turns e)) as [[u|x|] tr]; cbn [fst snd];
    try reflexivity.
  now destruct (is_disconnect x).
Qed.

Lemma filter_none {A} (f : A -> bool) l :
  forallb (fun a => negb (f a)) l = true -> filter f l = [].
Proof.
  induction l as [|a l IH]; [reflexivity|].
  cbn. destruct (f a); cbn; [discriminate|exact IH].
Qed.

Lemma read_loop_own_calls ws ts :
  Forall (fun a => action_ws a = ws /\
                   forall text, sent_text a = Some text -> text = "pong")
         (snd (read_loop ws ts)).
Proof.
  assert (Hrecv : action_ws (ReceiveText ws) = ws /\
                  forall text, sent_text (ReceiveText ws) = Some text ->
                               text = "pong")
    by (split; [reflexivity | discriminate]).
  assert (Hsend : action_ws (SendText ws "pong") = ws /\
                  forall text, sent_text (SendText ws "pong") = Some text ->
                               text = "pong")
    by (split; [reflexivity | now intros text [= <-]]).
  induction ts as [|t rest IH]; [now repeat constructor|].
  rewrite read_loop_cons.
  destruct (on_receive t) as [data|x|]; try (now repeat constructor).
  destruct (String.eqb data "ping").
  - destruct (on_send t) as [[]|x|]; cbn [snd app];
      now repeat (constructor; try assumption).
  - cbn [snd app]. now constructor.
Qed.

(** X1: every call of a run is made on the handler's own connection, and
    nothing but the text "pong" is ever written to it. *)
Theorem handler_keeps_to_its_connection ws role e :
  Forall (fun a => action_ws a = ws /\
                   forall text, sent_text a = Some text -> text = "pong")
         (snd (websocket_endpoint ws role e)).
Proof.
  rewrite websocket_endpoint_trace.
  constructor; [split; [reflexivity | discriminate]|].
  destruct (on_connect e) as [[]|x|]; try constructor.
  apply Forall_app. split; [apply read_loop_own_calls|].
  destruct (fst (read_loop ws (turns e))) as [u|x|]; try constructor.
  destruct (is_disconnect x); repeat constructor. discriminate.
Qed.

Lemma read_loop_sends ws ts :
  List.length (filter is_send (snd (read_loop ws ts)))
  <= List.length (filter is_ping ts).
Proof.
  induction ts as [|t rest IH]; [cbn; lia|].
  rewrite read_loop_cons. cbn [filter]. unfold is_ping at 1.
  destruct (on_receive t) as [data|x|]; try (cbn; lia).
  destruct (String.eqb data "ping").
  - destruct (on_send t) as [[]|x|]; cbn in *; lia.
  - cbn in *. lia.
Qed.

Lemma completed_turns_sends ws ts :
  forallb turn_completes ts = true ->
  List.length (filter is_send (flat_map (turn_actions ws) ts))
  = List.length (filter is_ping ts).
Proof.
  induction ts as [|t rest IH]; [reflexivity|].
  cbn [forallb flat_map filter]. intros [Ht Hrest]%andb_prop.
  rewrite filter_app, length_app, (IH Hrest).
  unfold turn_completes in Ht. unfold turn_actions, is_ping.
  destruct (on_receive t) as [data|x|]; try discriminate.
  now destruct (String.eqb data "ping").
Qed.

(** X2: a run writes at most one reply per "ping" frame delivered, and on
    an open connection exactly one per "ping". *)
Theorem one_pong_per_ping ws role e :
  let t := snd (websocket_endpoint ws role e) in
  List.length (filter is_send t) <= List.length (filter is_ping (turns e)) /\
  (connection_open e = true ->
   List.length (filter is_send t) = List.length (filter is_ping (turns e))).
Proof.
  cbn zeta. split.
  - rewrite websocket_endpoint_trace. cbn [filter is_send sent_text].
    destruct (on_connect e) as [[]|x|]; try (cbn; lia).
    rewrite filter_app, length_app.
    pose proof (read_loop_sends ws (turns e)) as Hle.
    destruct (fst (read_loop ws (turns e))) as [u|x|]; cbn; try lia.
    destruct (is_disconnect x); cbn; lia.
  - intros Ho. rewrite (websocket_endpoint_open ws role e Ho).
    cbn [snd filter is_send sent_text]. rewrite filter_app, length_app.
    unfold connection_open in Ho.
    destruct (on_connect e) as [[]|x|]; try discriminate.
    rewrite (completed_turns_sends ws _ Ho). cbn. lia.
Qed.

Lemma one_pong_per_ping_witness :
  List.length
    (filter is_send
       (snd (websocket_endpoint 7 "driver"
               (then_turn chatting (mkTurn (Ret "ping") (Ret tt)))))) = 1.
Proof.
  exact (proj2 (one_pong_per_ping 7 "driver"
                  (then_turn chatting (mkTurn (Ret "ping") (Ret tt))))
           eq_refl).
Defined.

(** X3: the handler returns only by way of a disconnect: when it returns,
    the registration had succeeded, the loop ended with
    [WebSocketDisconnect], and [manager.disconnect(websocket, role)] was the
    last call and returned. *)
Theorem returns_only_after_disconnect ws role e :
  fst (websocket_endpoint ws role e) = Ret tt ->
  on_connect e = Ret tt /\
  on_disconnect e = Ret tt /\
  (exists x, fst (read_loop ws (turns e)) = Raise x /\ is_disconnect x = true) /\
  exists t, snd (websocket_endpoint ws role e) = t ++ [ManagerDisconnect ws role].
Proof.
  rewrite websocket_endpoint_result, websocket_endpoint_trace.
  destruct (on_connect e) as [[]|x|]; try discriminate.
  pose proof (read_loop_never_returns ws (turns e)) as Hnever.
  destruct (fst (read_loop ws (turns e))) as [u|x|]; try discriminate.
  - intros _. now destruct (Hnever u).
  - destruct (is_disconnect x) eqn:Hd; [|discriminate].
    intros Hr. repeat split; [exact Hr | eauto |].
    exists (ManagerConnect ws role :: snd (read_loop ws (turns e))).
    reflexivity.
Qed.

Lemma returns_only_after_disconnect_witness :
  exists t,
    snd (websocket_endpoint 7 "driver"
           (mkEnv (Ret tt) [mkTurn (Raise client_gone) (Ret tt)] (Ret tt)))
    = t ++ [ManagerDisconnect 7 "driver"].
Proof.
  exact (proj2 (proj2 (proj2
           (returns_only_after_disconnect 7 "driver"
              (mkEnv (Ret tt) [mkTurn (Raise client_gone) (Ret tt)] (Ret tt))
              eq_refl)))).
Defined.

(** X4: a run touches the registry at most twice: the registration first
    and, at most once and after it, the unregistration of the same
    connection under the same role. *)
Theorem registry_touched_at_most_twice ws role e :
  let calls := filter registry_call (snd (websocket_endpoint ws role e)) in
  calls = [ManagerConnect ws role] \/
  calls = [ManagerConnect ws role; ManagerDisconnect ws role].
Proof.
  cbn zeta. rewrite websocket_endpoint_trace. cbn [filter registry_call].
  destruct (on_connect e) as [[]|x|]; try (now left).
  rewrite filter_app, (filter_none _ _ (read_loop_no_registry ws (turns e))).
  destruct (fst (read_loop ws (turns e))) as [u|x|]; try (now left).
  destruct (is_disconnect x); [now right | now left].
Qed.

Lemma read_loop_stops ws t post :
  turn_completes t = false -> read_loop ws (t :: post) = read_loop ws [t].
Proof.
  unfold turn_completes. intros Ht. rewrite !read_loop_cons.
  destruct (on_receive t) as [data|x|]; try reflexivity.
  destruct (String.eqb data "ping"); [|discriminate].
  destruct (on_send t) as [[]|x|]; try reflexivity. discriminate.
Qed.

(** X5: once a turn fails to complete (the read or the reply raises, or
    never answers) the handler reads nothing more: whatever the transport
    would have delivered afterwards makes no difference to the run. *)
Theorem frames_after_exit_are_unread ws role oc od pre t post :
  forallb turn_completes pre = true ->
  turn_completes t = false ->
  websocket_endpoint ws role (mkEnv oc (pre ++ t :: post) od) =
  websocket_endpoint ws role (mkEnv oc (pre ++ [t]) od).
Proof.
  intros Hpre Ht. unfold websocket_endpoint. cbn [turns on_connect on_disconnect].
  now rewrite !(read_loop_app ws pre _ Hpre), (read_loop_stops ws t post Ht).
Qed.

Lemma frames_after_exit_are_unread_witness :
  websocket_endpoint 7 "driver"
    (mkEnv (Ret tt)
       ([mkTurn (Ret "hello") (Ret tt)]
          ++ mkTurn (Raise client_gone) (Ret tt)
          :: [mkTurn (Ret "ping") (Ret tt)])
       (Ret tt)) =
  websocket_endpoint 7 "driver"
    (mkEnv (Ret tt)
       ([mkTurn (Ret "hello") (Ret tt)] ++ [mkTurn (Raise client_gone) (Ret tt)])
       (Ret tt)).
Proof.
  exact (frames_after_exit_are_unread 7 "driver" (Ret tt) (Ret tt)
           [mkTurn (Ret "hello") (Ret tt)]
           (mkTurn (Raise client_gone) (Ret tt))
           [mkTurn (Ret "ping") (Ret tt)] eq_refl eq_refl).
Defined.

(** X6: a reply that cannot be written ends the loop after that one attempt.
    When [send_text("pong")] raises [WebSocketDisconnect] the connection is
    unregistered and the handler ends as [manager.disconnect] does; when
    it raises anything else the exception leaves the handler and the
    connection stays registered. *)
Theorem failed_pong_ends_the_loop ws role e x :
  connection_open e = true ->
  let before := websocket_endpoint ws role e in
  let after :=
    websocket_endpoint ws role (then_turn e (mkTurn (Ret "ping") (Raise x))) in
  (is_disconnect x = true ->
   fst after = on_disconnect e /\
   snd after = snd before ++ [SendText ws "pong"; ManagerDisconnect ws role]) /\
  (is_disconnect x = false ->
   fst after = Raise x /\
   snd after = snd before ++ [SendText ws "pong"]).
Proof.
  intros Ho. cbn zeta.
  rewrite (then_turn_open ws role e _ Ho), (websocket_endpoint_open ws role e Ho).
  rewrite read_loop_cons. cbn [on_receive on_send String.eqb Ascii.eqb Bool.eqb].
  unfold try_except_disconnect, call. cbn zeta.
  split; intros Hd; rewrite Hd; cbn [fst snd]; (split; [reflexivity|]);
    cbn [app]; now rewrite <- app_assoc.
Qed.

Lemma failed_pong_ends_the_loop_witness :
  snd (websocket_endpoint 7 "driver"
         (then_turn quiet (mkTurn (Ret "ping") (Raise runtime_error)))) =
  [ManagerConnect 7 "driver"; ReceiveText 7; SendText 7 "pong"].
Proof.
  exact (proj2 (proj2 (failed_pong_ends_the_loop 7 "driver" quiet runtime_error
                         eq_refl) eq_refl)).
Defined.

End EndpointRuns.

(** ** Whole runs of the lifespan hook *)

Section LifespanRunsMore.
Import Lifespan Obs.
Variable settings : Settings.

Ltac outcome o :=
  destruct o as [[]|?x|]; cbn [bind call ret async_with fst snd app returned].

Ltac fields e :=
  destruct e as [o1 o2 o3 o4 o5 o6 o7];
  cbn [on_begin_enter on_create_all on_begin_exit on_start_subscriber
       on_yield on_stop_subscriber on_dispose].

Ltac settle :=
  split; [split|]; intuition (try discriminate; try reflexivity).

(** X7: on every run the calls are an initial part of the sequence of the
    source: enter the [engine.begin()] block, [create_all], leave the block,
    [start_subscriber], yield, [stop_subscriber], [engine.dispose()].  No
    call is skipped, repeated or made out of turn; a run only stops
    early. *)
Theorem calls_follow_source_order e :
  exists rest,
    snd (lifespan settings e) ++ rest =
    source_order settings (returned (on_create_all e)).
Proof.
  rewrite (lifespan_unfold settings). unfold source_order. fields e.
  outcome o1; [| eexists; reflexivity ..].
  outcome o2; [| outcome o3; eexists; reflexivity | eexists; reflexivity].
  outcome o3; [| eexists; reflexivity ..].
  outcome o4; [| eexists; reflexivity ..].
  outcome o5; [| eexists; reflexivity ..].
  outcome o6; [| eexists; reflexivity ..].
  outcome o7; exists []; reflexivity.
Qed.

(** X8: the hook runs to its end exactly when every one of its seven calls
    returns, and then it has made all seven, in the order of the source. *)
Theorem lifespan_completes e :
  (fst (lifespan settings e) = Ret tt <->
   on_begin_enter e = Ret tt /\ on_create_all e = Ret tt /\
   on_begin_exit e = Ret tt /\ on_start_subscriber e = Ret tt /\
   on_yield e = Ret tt /\ on_stop_subscriber e = Ret tt /\
   on_dispose e = Ret tt) /\
  (fst (lifespan settings e) = Ret tt ->
   snd (lifespan settings e) = source_order settings true).
Proof.
  rewrite (lifespan_unfold settings). unfold source_order. fields e.
  outcome o1; [| settle ..].
  outcome o2; [| outcome o3; settle | settle].
  outcome o3; [| settle ..].
  outcome o4; [| settle ..].
  outcome o5; [| settle ..].
  outcome o6; [| settle ..].
  outcome o7; settle.
Qed.

(** X9: the shutdown half runs only after a complete startup and a normal
    resumption.  When the subscriber cannot be started, or the host throws
    into the hook where it is suspended, neither [stop_subscriber()] nor
    [engine.dispose()] is called. *)
Theorem shutdown_needs_normal_resume e :
  let t := snd (lifespan settings e) in
  In StopSubscriber t \/ In EngineDispose t ->
  on_begin_enter e = Ret tt /\ on_create_all e = Ret tt /\
  on_begin_exit e = Ret tt /\ on_start_subscriber e = Ret tt /\
  on_yield e = Ret tt.
Proof.
  cbn zeta. rewrite (lifespan_unfold settings). fields e.
  outcome o1; [| cbn [In]; intuition discriminate ..].
  outcome o2; [| outcome o3; cbn [In]; intuition discriminate
               | cbn [In]; intuition discriminate].
  outcome o3; [| cbn [In]; intuition discriminate ..].
  outcome o4; [| cbn [In]; intuition discriminate ..].
  outcome o5; [| cbn [In]; intuition discriminate ..].
  intros _. repeat split.
Qed.

(** X10: when [create_all] raises, the [engine.begin()] block is still
    left, flagged as failed, and nothing further is called; the hook then
    raises the exception of [create_all], unless leaving the block raises
    one of its own, which takes its place. *)
Theorem schema_failure_surfaces e x :
  on_begin_enter e = Ret tt ->
  on_create_all e = Raise x ->
  snd (lifespan settings e) =
  [EngineBeginEnter; RunSyncCreateAll; EngineBeginExit false] /\
  (on_begin_exit e = Ret tt -> fst (lifespan settings e) = Raise x) /\
  (forall x', on_begin_exit e = Raise x' ->
              fst (lifespan settings e) = Raise x').
Proof.
  rewrite (lifespan_unfold settings). fields e. intros -> ->.
  cbn [bind call ret async_with fst snd app].
  outcome o3; repeat split; try discriminate. now intros x' [= ->].
Qed.

End LifespanRunsMore.

Section LifespanSamples.
Import Lifespan Obs.

Lemma lifespan_completes_witness :
  snd (lifespan sample_settings all_well) = source_order sample_settings true.
Proof.
  exact (proj2 (lifespan_completes sample_settings all_well) eq_refl).
Defined.

Lemma shutdown_needs_normal_resume_witness :
  on_yield all_well = Ret tt.
Proof.
  apply (shutdown_needs_normal_resume sample_settings all_well).
  left. cbn. do 5 right. left. reflexivity.
Defined.

Lemma schema_failure_surfaces_witness :
  fst (lifespan sample_settings schema_fails) =
  Raise (mkException IsOther "OperationalError" "connection refused").
Proof.
  exact (proj1 (proj2 (schema_failure_surfaces sample_settings schema_fails
                         _ eq_refl eq_refl)) eq_refl).
Defined.

End LifespanSamples.

(** ** The error responses as a family *)

Section ErrorResponses.
Import Http Obs.

(** X11: whichever of the four handlers answers, the body has the same
    shape: the keys ["success"], ["error"], ["message"] in that order,
    ["success"] false, and an ["error"] record that echoes the URL and the
    method of the request and carries the time of the answer. *)
Theorem error_envelope c request exc :
  let r := registered_handler c request exc in
  keys (content r) = ["success"; "error"; "message"] /\
  field "success" (content r) = Some (JBool false) /\
  exists err,
    field "error" (content r) = Some err /\
    field "path" err = Some (JStr (url request)) /\
    field "method" err = Some (JStr (method request)) /\
    field "timestamp" err = Some (JStr (now_isoformat c)).
Proof.
  cbn zeta. unfold registered_handler.
  destruct (exc_kind_of exc);
    (split; [reflexivity|]; split; [reflexivity|]; eexists; repeat split).
Qed.

(** X14: the status of an error answer is 500 unless the exception is an
    [HTTPException], which sets its own, or a [RequestValidationError],
    which gives 422; and only the two handlers answering 500 by themselves
    attach an error id. *)
Theorem status_by_exception_class c request exc :
  let r := registered_handler c request exc in
  (status_code r <> 500%Z ->
   (exists d, exc_kind_of exc = IsHTTPException (status_code r) d) \/
   (exists errs, exc_kind_of exc = IsRequestValidationError errs /\
                 status_code r = 422%Z)) /\
  (forall err id,
      field "error" (content r) = Some err ->
      field "error_id" err = Some id ->
      status_code r = 500%Z /\ id = JStr (now_strftime c)).
Proof.
  cbn zeta. unfold registered_handler.
  destruct (exc_kind_of exc) as [|sc d|errs|errs|]; cbn; split;
    try (intros H; now destruct H);
    try (intros err id [= <-]; cbn; (discriminate || now intros [= <-])).
  - intros _. left. now exists d.
  - intros _. right. now exists errs.
Qed.

(** X15: the Mapbox route never hands out an empty token: the value under
    ["mapbox_token"] is null or a non-empty string, and ["mapbox_token"] is
    the only key of the answer. *)
Theorem mapbox_token_is_null_or_nonempty settings :
  keys (get_mapbox_token settings) = ["mapbox_token"] /\
  (field "mapbox_token" (get_mapbox_token settings) = Some JNull \/
   exists t, t <> "" /\
             MAPBOX_TOKEN settings = Some t /\
             field "mapbox_token" (get_mapbox_token settings) = Some (JStr t)).
Proof.
  unfold get_mapbox_token, truthy, json_of_token.
  destruct (MAPBOX_TOKEN settings) as [t|]; cbn [negb].
  - destruct (String.eqb t "") eqn:Ht; cbn [negb].
    + split; [reflexivity | now left].
    + split; [reflexivity|]. right. exists t. repeat split.
      intros ->. discriminate.
  - split; [reflexivity | now left].
Qed.

End ErrorResponses.

Section ErrorSamples.
Import Http Obs.

Lemma status_by_exception_class_witness :
  (exists d, exc_kind_of not_found = IsHTTPException 404 d) \/
  (exists errs, exc_kind_of not_found = IsRequestValidationError errs /\
                status_code (registered_handler sample_clock sample_request
                               not_found) = 422%Z).
Proof.
  apply (proj1 (status_by_exception_class sample_clock sample_request not_found)).
  discriminate.
Defined.

End ErrorSamples.

(** ** The request logging middleware *)

Section MiddlewareRuns.
Import Middleware Obs.
Variable Response : Type.
Variable status_of : Response -> Z.

(** X16: [log_requests] is transparent.  It hands the request on unchanged
    and once only, after writing the request line; what it yields is what
    [call_next] yields, the same response, the same exception or nothing
    yet; and it writes a response line, with the status of the response,
    exactly when [call_next] returns. *)
Theorem log_requests_is_transparent request (e : env Response) :
  let r := log_requests status_of request e in
  fst r = on_call_next e /\
  filter is_call_next (snd r) = [CallNext request] /\
  (exists rest,
      snd r = LoggerInfo (RequestLine (Http.method request) (Http.url request))
              :: CallNext request :: rest) /\
  filter is_response_line (snd r) =
  match on_call_next e with
  | Ret response =>
      [LoggerInfo (ResponseLine (status_of response) (now_start e) (now_finish e))]
  | _ => []
  end.
Proof.
  cbn zeta. unfold log_requests, bind, call, ret.
  destruct (on_call_next e) as [response|x|]; cbn; repeat split; eauto.
Qed.

End MiddlewareRuns.

(** ** Exceptions that leave a route *)

Section Application.
Import Http Render App.

(** C10, as the application has it: an exception that leaves a route and
    is none of [HTTPException], [RequestValidationError] and
    [ResponseValidationError] is answered, when the response has not
    started, with status code 500, and is then raised again to the server:
    it is not absorbed.  [general_exception_handler], the handler registered
    for [Exception], returns for every request and exception a JSON
    response with status code 500 whose body has ["success"] false and an
    ["error"] record carrying the exception's type name and message; it is
    the answer sent whenever the server-error layer calls the registered
    handler. *)
Theorem unregistered_exception_outcome dbg c request x started :
  class_of x = Unregistered ->
  let e := as_exception x in
  let o := handle_exception dbg c request x started in
  let r := general_exception_handler c request e in
  reraised o = Some e /\
  (started = true -> sent o = None) /\
  (started = false ->
   exists a, sent o = Some a /\ answer_status a = 500%Z /\
             (dbg = false -> a = HandlerResponse r)) /\
  status_code r = 500%Z /\
  field "success" (content r) = Some (JBool false) /\
  exists err,
    field "error" (content r) = Some err /\
    field "error_type" err = Some (JStr (type_name x)) /\
    field "error_message" err = Some (JStr (text x)).
Proof.
  intros Hx. cbn zeta.
  unfold handle_exception, exception_middleware. rewrite Hx.
  cbn [server_error_middleware reraised sent].
  split; [reflexivity|]. split; [now intros ->|]. split.
  - intros ->. destruct dbg; eexists; (split; [reflexivity|]); split;
      try reflexivity; try discriminate.
  - split; [reflexivity|]. split; [reflexivity|].
    eexists. repeat split.
Qed.

Lemma unregistered_exception_outcome_witness :
  reraised (handle_exception App.debug sample_clock sample_request
              value_error_raised false) = Some value_error /\
  exists a,
    sent (handle_exception App.debug sample_clock sample_request
            value_error_raised false) = Some a /\
    answer_status a = 500%Z.
Proof.
  pose proof (unregistered_exception_outcome App.debug sample_clock
                sample_request value_error_raised false eq_refl) as H.
  split; [exact (proj1 H)|].
  destruct (proj1 (proj2 (proj2 H)) eq_refl) as [a [Hs [Ha _]]].
  exists a. exact (conj Hs Ha).
Defined.

(** C10, as stated, fails on the application main.py builds: with
    [debug=True] a [ValueError] leaving a route is answered with the
    traceback page, not with the response of [general_exception_handler],
    and the exception goes on to the server. *)
Lemma traceback_replaces_envelope :
  class_of value_error_raised = Unregistered /\
  sent (handle_exception App.debug sample_clock sample_request
          value_error_raised false) = Some (DebugResponse value_error) /\
  sent (handle_exception App.debug sample_clock sample_request
          value_error_raised false) <>
  Some (HandlerResponse
          (general_exception_handler sample_clock sample_request value_error)) /\
  reraised (handle_exception App.debug sample_clock sample_request
              value_error_raised false) = Some value_error.
Proof.
  split; [reflexivity|]. split; [reflexivity|]. split; [|reflexivity].
  cbn. discriminate.
Qed.






End Application.
